(** * OKD k8s module: creating projects through ProjectRequest

    A shallow embedding of [plugins/modules/k8s.py].  The module subclasses
    the raw Kubernetes module of the community.kubernetes collection and
    overrides [perform_action] so that a [Project] which cannot be read is
    created by submitting a [ProjectRequest].

    Python dictionaries are finite maps from strings to values, the
    definition handed to [perform_action] lives in a heap because the code
    updates it in place, and every method is a computation over a world that
    holds this heap, the state of the cluster and the list of calls made to
    the cluster so far. *)

From stdpp Require Import gmap strings list fin_maps.
From Stdlib Require Import ZArith.

Set Warnings "-register-all".

(** ** Python values *)

Inductive value :=
| VNone
| VBool (b : bool)
| VInt (z : Z)
| VStr (s : string)
| VList (l : list value)
| VDict (d : gmap string value).

Abbreviation dict := (gmap string value).

(** [v == s] for a string literal [s]. *)
Definition py_eq_str (v : value) (s : string) : bool :=
  match v with
  | VStr s' => String.eqb s' s
  | _ => false
  end.

(** [v in [s1, s2, ...]] for a list of string literals. *)
Definition py_in_strs (v : value) (l : list string) : bool :=
  existsb (py_eq_str v) l.

(** [d.get(k)] and [d.get(k, dflt)] on a dictionary. *)
Definition dict_get (d : dict) (k : string) (dflt : value) : value :=
  default dflt (d !! k).

(** ** Exceptions

    [openshift.dynamic.exceptions] derives [NotFoundError] and
    [ForbiddenError] from [DynamicApiError]; the class [DynamicApiError]
    below stands for the base class and for every other subclass of it. *)

Inductive api_error_class :=
| NotFoundError
| ForbiddenError
| DynamicApiError.

Record api_exc := ApiExc {
  exc_class : api_error_class;
  body : string;
  status : Z;
  reason : string;
}.

Inductive exn :=
| ApiError (exc : api_exc)
| KeyError (key : string)
| AttributeError (attr : string)
| OtherException (msg : string).

(** [except (NotFoundError, ForbiddenError)] *)
Definition is_notfound_or_forbidden (exc : api_exc) : bool :=
  match exc_class exc with
  | NotFoundError | ForbiddenError => true
  | DynamicApiError => false
  end.

(** ** Outcomes

    A call returns, leaves the module through [fail_json] with the keyword
    arguments it was given, or raises. *)

Inductive outcome (A : Type) :=
| Returned (a : A)
| Failed (kwargs : dict)
| Raised (e : exn).
Arguments Returned {A} a.
Arguments Failed {A} kwargs.
Arguments Raised {A} e.

(** ** The cluster client

    What the module asks of the cluster: [resource.get(name, namespace)],
    [resource.create(definition)], [k8s_obj.to_dict()] and the base class's
    [find_resource(kind, api_version, fail)].  Each call may change the state
    of the cluster. *)

Class DynamicClient := {
  Cluster : Type;
  Resource : Type;
  ResourceInstance : Type;
  client_get : Resource → value → value → Cluster → outcome ResourceInstance * Cluster;
  client_create : Resource → dict → Cluster → outcome ResourceInstance * Cluster;
  to_dict : ResourceInstance → dict;
  client_find_resource : string → value → bool → Cluster → outcome Resource * Cluster;
}.

(** Calls that reach the cluster.  [EvWait] is the base class's wait for an
    object to reach its desired state. *)
Inductive event `{DynamicClient} :=
| EvGet (resource : Resource) (name namespace : value)
| EvFindResource (kind : string) (api_version : value) (fail : bool)
| EvCreate (resource : Resource) (body : dict)
| EvWait (resource : Resource) (body : dict).

Definition is_create `{DynamicClient} (e : event) : bool :=
  match e with EvCreate _ _ => true | _ => false end.

Definition is_wait `{DynamicClient} (e : event) : bool :=
  match e with EvWait _ _ => true | _ => false end.

(** ** Worlds and computations *)

Definition ref := positive.

Record world `{DynamicClient} := World {
  heap : gmap ref dict;
  cluster : Cluster;
  calls : list event;
}.
Arguments World {_} heap cluster calls.

Definition M `{DynamicClient} (A : Type) : Type := world → outcome A * world.

Section monad.
Context {client : DynamicClient}.

#[export] Instance M_ret : MRet M := λ A a w, (Returned a, w).

#[export] Instance M_bind : MBind M := λ A B f m w,
  match m w with
  | (Returned a, w') => f a w'
  | (Failed kwargs, w') => (Failed kwargs, w')
  | (Raised e, w') => (Raised e, w')
  end.

Definition raise {A} (e : exn) : M A := λ w, (Raised e, w).

(** [self.fail_json(...)] with keyword arguments [kwargs]: the module exits. *)
Definition fail_json {A} (kwargs : dict) : M A := λ w, (Failed kwargs, w).

(** [try: m  except ... : handler]; a handler re-raises what no clause
    catches.  [fail_json] is not an exception the clauses can catch. *)
Definition try_except {A} (m : M A) (handler : exn → M A) : M A := λ w,
  match m w with
  | (Raised e, w') => handler e w'
  | r => r
  end.

(** A call to the cluster: run it on the cluster and record it. *)
Definition call {A} (ev : event) (f : Cluster → outcome A * Cluster) : M A := λ w,
  let '(o, c) := f (cluster w) in
  (o, World (heap w) c (calls w ++ [ev])).

(** Reading and updating a dictionary object. *)
Definition deref (r : ref) : M dict := λ w,
  match heap w !! r with
  | Some d => (Returned d, w)
  | None => (Raised (OtherException "no such object"), w)
  end.

(** [r[k]] *)
Definition getitem (r : ref) (k : string) : M value :=
  d ← deref r;
    match d !! k with
    | Some v => mret v
    | None => raise (KeyError k)
    end.

Definition store (r : ref) (d : dict) : M unit := λ w,
  (Returned tt, World (<[r := d]> (heap w)) (cluster w) (calls w)).

(** [r[k] = v]: the object is updated in place, whoever holds [r] sees it. *)
Definition setitem (r : ref) (k : string) (v : value) : M unit :=
  d ← deref r;
  store r (<[k := v]> d).

(** [v.get(k)] on a value: only dictionaries have the method. *)
Definition get_method (v : value) (k : string) : M value :=
  match v with
  | VDict d => mret (dict_get d k VNone)
  | _ => raise (AttributeError "get")
  end.

Definition resource_get (resource : Resource) (name namespace : value) : M ResourceInstance :=
  call (EvGet resource name namespace) (client_get resource name namespace).

(** [resource.create(definition)]: the body sent is what the dictionary
    holds when the call is made. *)
Definition resource_create (resource : Resource) (definition : ref) : M ResourceInstance :=
  d ← deref definition;
  call (EvCreate resource d) (client_create resource d).

Definition find_resource (kind : string) (api_version : value) (fail : bool) : M Resource :=
  call (EvFindResource kind api_version fail) (client_find_resource kind api_version fail).
End monad.


(** ** The module object, the module globals and the base class *)

(** What the methods below read of [self]. *)
Record module_self := Self {
  params : dict;
  check_mode : bool;
}.

(** The globals set when the file is imported: whether the import of the
    community.kubernetes collection succeeded and, if it did not, the
    traceback and the text of the [ImportError]. *)
Record globals := Globals {
  HAS_KUBERNETES_COLLECTION : bool;
  K8S_COLLECTION_ERROR : string;
  k8s_collection_import_exception : string;
}.

(** [to_native] of an exception is its text. *)
Definition to_native (e : string) : string := e.

(** The methods of [KubernetesRawModule] that the subclass relies on.
    [execute_module] calls [self.perform_action], which the subclass
    overrides, so it takes that method as an argument. *)
Class KubernetesRawModule `{DynamicClient} := {
  super_init : M module_self;
  super_perform_action : module_self → Resource → ref → M dict;
  execute_module : (module_self → Resource → ref → M dict) → module_self → M ();
}.

(** ** The class [OKDRawModule] *)

Section OKDRawModule.
Context {client : DynamicClient} {base : KubernetesRawModule}.

(** [self.fail_json(...)] on an instance whose [__init__] has not run.
    When the import of the collection failed the base class is Ansible's
    [AnsibleModule]; its [fail_json] cleans up the files in
    [self.cleanup_files] before it emits anything, and only
    [AnsibleModule.__init__] sets that attribute.  The call therefore raises
    [AttributeError] and the keyword arguments are never emitted. *)
Definition fail_json_unconstructed {A} (kwargs : dict) : M A :=
  raise (AttributeError "cleanup_files").

(** [OKDRawModule.__init__]: [fail_json] is called before
    [super().__init__()]. *)
Definition init (g : globals) : M module_self :=
  (if negb (HAS_KUBERNETES_COLLECTION g) then
     fail_json_unconstructed {[ "msg" := VStr "The community.kubernetes collection must be installed";
                  "exception" := VStr (K8S_COLLECTION_ERROR g);
                  "error" := VStr (to_native (k8s_collection_import_exception g)) ]}
   else mret ());;
  super_init.

Definition create_project_request (self : module_self) (definition : ref) : M dict :=
  setitem definition "kind" (VStr "ProjectRequest");;
  let result : dict := {[ "changed" := VBool false; "result" := VDict ∅ ]} in
  apiVersion ← getitem definition "apiVersion";
  resource ← find_resource "ProjectRequest" apiVersion true;
  result ←
    (if negb (check_mode self) then
       try_except
         (k8s_obj ← resource_create resource definition;
          mret (<["result" := VDict (to_dict k8s_obj)]> result))
         (λ e, match e with
               | ApiError exc =>
                   fail_json {[ "msg" := VStr ("Failed to create object: " +:+ body exc);
                                "error" := VInt (status exc);
                                "status" := VInt (status exc);
                                "reason" := VStr (reason exc) ]}
               | _ => raise e
               end)
     else mret result);
  let result := <["changed" := VBool true]> result in
  let result := <["method" := VStr "create"]> result in
  mret result.

Definition perform_action (self : module_self) (resource : Resource) (definition : ref) : M dict :=
  let state := dict_get (params self) "state" VNone in
  metadata ← getitem definition "metadata";
  name ← get_method metadata "name";
  metadata ← getitem definition "metadata";
  namespace ← get_method metadata "namespace";
  kind ← getitem definition "kind";
  returned ←
    (if py_in_strs kind ["Project"; "ProjectRequest"] && negb (py_eq_str state "absent") then
       try_except
         (resource_get resource name namespace;; mret None)
         (λ e, match e with
               | ApiError exc =>
                   if is_notfound_or_forbidden exc then
                     result ← create_project_request self definition;
                     mret (Some result)
                   else
                     fail_json {[ "msg" := VStr ("Failed to retrieve requested object: " +:+ body exc);
                                  "error" := VInt (status exc);
                                  "status" := VInt (status exc);
                                  "reason" := VStr (reason exc) ]}
               | _ => raise e
               end)
     else mret None);
  match returned with
  | Some result => mret result
  | None => super_perform_action self resource definition
  end.

(** [OKDRawModule().execute_module()] *)
Definition main (g : globals) : M () :=
  self ← init g;
  execute_module perform_action self.
End OKDRawModule.

(** ** Vocabulary of the statements

    Names for the worlds, dictionaries and case distinctions that the
    properties of the methods are stated with. *)

Section vocabulary.
Context {client : DynamicClient} {base : KubernetesRawModule}.
Implicit Types (w : world) (d metadata : dict) (self : module_self).
Implicit Types (definition : ref) (resource : Resource).

(** The world once a call to the cluster has answered. *)
Definition after_call (ev : event) (c : Cluster) w : world :=
  World (heap w) c (calls w ++ [ev]).

(** The dictionary that [create_project_request] returns around the
    object [o]. *)
Definition created (o : dict) : dict :=
  {[ "changed" := VBool true; "method" := VStr "create"; "result" := VDict o ]}.

(** The keyword arguments of [fail_json] for an API error. *)
Definition api_failure (what : string) (exc : api_exc) : dict :=
  {[ "msg" := VStr (what +:+ body exc);
     "error" := VInt (status exc);
     "status" := VInt (status exc);
     "reason" := VStr (reason exc) ]}.

(** [perform_action] probes the cluster for this definition under these
    parameters. *)
Definition probes self (kind : value) : bool :=
  py_in_strs kind ["Project"; "ProjectRequest"]
  && negb (py_eq_str (dict_get (params self) "state" VNone) "absent").

(** The definition once its kind has been overwritten. *)
Definition switched d : dict := <["kind" := VStr "ProjectRequest"]> d.

(** What [create_project_request] makes of the answer to
    [resource.create]. *)
Definition create_outcome (answer : outcome ResourceInstance) : outcome dict :=
  match answer with
  | Returned k8s_obj => Returned (created (to_dict k8s_obj))
  | Failed kwargs => Failed kwargs
  | Raised (ApiError exc) => Failed (api_failure "Failed to create object: " exc)
  | Raised e => Raised e
  end.

(** What [perform_action] makes of the answer to [resource.get], in the
    world [w1] in which the answer arrived. *)
Definition on_probe self resource definition
    (answer : outcome ResourceInstance) (w1 : world) : outcome dict * world :=
  match answer with
  | Returned _ => super_perform_action self resource definition w1
  | Failed kwargs => (Failed kwargs, w1)
  | Raised (ApiError exc) =>
      if is_notfound_or_forbidden exc
      then create_project_request self definition w1
      else (Failed (api_failure "Failed to retrieve requested object: " exc), w1)
  | Raised e => (Raised e, w1)
  end.

(** The provisioning path is entered: the definition [d] can be read, its
    kind is one of the two provisioning kinds, the state is not [absent] and
    the lookup of the live object raises [NotFoundError] or
    [ForbiddenError], leaving the cluster in [c1]. *)
Definition enters_provisioning self resource definition w d (c1 : Cluster) : Prop :=
  ∃ metadata (kind : value) exc,
    heap w !! definition = Some d ∧
    d !! "metadata" = Some (VDict metadata) ∧
    d !! "kind" = Some kind ∧
    (kind = VStr "Project" ∨ kind = VStr "ProjectRequest") ∧
    dict_get (params self) "state" VNone ≠ VStr "absent" ∧
    client_get resource (dict_get metadata "name" VNone)
      (dict_get metadata "namespace" VNone) (cluster w)
    = (Raised (ApiError exc), c1) ∧
    (exc_class exc = NotFoundError ∨ exc_class exc = ForbiddenError).
End vocabulary.

(** ** A small cluster to run the module on

    The cluster knows which projects exist, whether the caller may read
    them and whether the API server answers at all.  A resource is its kind
    and an object is its dictionary. *)

Module Fake.
Record server := Server {
  projects : list string;
  may_read : bool;
  up : bool;
}.

Definition server_error : exn :=
  ApiError (ApiExc DynamicApiError "internal error" 500 "Internal Server Error").
Definition forbidden : exn :=
  ApiError (ApiExc ForbiddenError "projects is forbidden" 403 "Forbidden").
Definition not_found : exn :=
  ApiError (ApiExc NotFoundError "project not found" 404 "Not Found").

Definition name_of (v : value) : string :=
  match v with VStr s => s | _ => "" end.

Definition get (resource : string) (name namespace : value) (c : server)
  : outcome dict * server :=
  if negb (up c) then (Raised server_error, c)
  else if negb (may_read c) then (Raised forbidden, c)
  else if existsb (String.eqb (name_of name)) (projects c)
  then (Returned {[ "kind" := VStr resource;
                    "metadata" := VDict {[ "name" := name ]} ]}, c)
  else (Raised not_found, c).

Definition create (resource : string) (body : dict) (c : server)
  : outcome dict * server :=
  if negb (up c) then (Raised server_error, c)
  else
    let name :=
      match body !! "metadata" with
      | Some (VDict m) => name_of (dict_get m "name" VNone)
      | _ => ""
      end in
    (Returned (<["status" := VDict {[ "phase" := VStr "Active" ]}]> body),
     Server (name :: projects c) (may_read c) (up c)).

Definition find (kind : string) (api_version : value) (fail : bool) (c : server)
  : outcome string * server :=
  (Returned kind, c).

#[export] Instance client : DynamicClient := {|
  Cluster := server;
  Resource := string;
  ResourceInstance := dict;
  client_get := get;
  client_create := create;
  to_dict := λ o, o;
  client_find_resource := find;
|}.

(** A base class whose reconciliation changes nothing and whose
    [execute_module] reconciles the one definition at address 1. *)
Definition base (self : module_self) : KubernetesRawModule := {|
  super_init := mret self;
  super_perform_action := λ _ _ _,
    mret ({[ "changed" := VBool false; "result" := VDict ∅ ]} : dict);
  execute_module := λ perform_action self,
    d ← deref 1%positive;
    kind ← getitem 1%positive "kind";
    perform_action self (name_of kind) 1%positive;;
    mret ();
|}.

Definition project (kind : string) : dict :=
  {[ "apiVersion" := VStr "project.openshift.io/v1";
     "kind" := VStr kind;
     "metadata" := VDict {[ "name" := VStr "testing" ]} ]}.

Definition self_ (state : string) (check : bool) : module_self :=
  Self {[ "state" := VStr state; "wait" := VBool true ]} check.

Definition start (d : dict) (c : server) : world :=
  World {[ 1%positive := d ]} c [].

Definition empty_cluster : server := Server [] true true.
Definition unreadable_cluster : server := Server [] false true.
Definition broken_cluster : server := Server [] true false.
Definition cluster_with_project : server := Server ["testing"] true true.

(** [perform_action] on the definition of a "testing" object of the
    given kind, against the cluster [c]. *)
Definition run (state : string) (check : bool) (kind : string) (c : server)
  : outcome dict * world :=
  perform_action (base := base (self_ state check))
    (self_ state check) kind 1%positive (start (project kind) c).

(** [create_project_request] on the definition of a "testing" project. *)
Definition request (check : bool) (c : server) : outcome dict * world :=
  create_project_request (self_ "present" check) 1%positive
    (start (project "Project") c).

(** The calls of a run that ends in a create. *)
Definition probe (kind : string) : event :=
  EvGet kind (VStr "testing") VNone.
Definition search : event :=
  EvFindResource "ProjectRequest" (VStr "project.openshift.io/v1") true.
Definition submit : event :=
  EvCreate "ProjectRequest" (project "ProjectRequest").

(** The object the cluster answers a create of the project request with. *)
Definition active_request : dict :=
  <["status" := VDict {[ "phase" := VStr "Active" ]}]> (project "ProjectRequest").
End Fake.

(** ** A cluster that answers from a script

    Each kind of call has one answer, whatever it is asked; this reaches the
    answers a well-behaved cluster does not give, such as a connection that
    breaks or a resource that cannot be found. *)

Module Scripted.
Record script := Script {
  on_get : outcome dict;
  on_find : outcome string;
  on_create : outcome dict;
}.

#[export] Instance client : DynamicClient := {|
  Cluster := script;
  Resource := string;
  ResourceInstance := dict;
  client_get := λ _ _ _ c, (on_get c, c);
  client_create := λ _ _ c, (on_create c, c);
  to_dict := λ o, o;
  client_find_resource := λ _ _ _ c, (on_find c, c);
|}.

(** A base class whose reconciliation changes nothing. *)
Definition base (self : module_self) : KubernetesRawModule := {|
  super_init := mret self;
  super_perform_action := λ _ _ _,
    mret ({[ "changed" := VBool false; "result" := VDict ∅ ]} : dict);
  execute_module := λ perform_action self,
    perform_action self "Project" 1%positive;;
    mret ();
|}.

Definition self_ (check : bool) : module_self :=
  Self {[ "state" := VStr "present" ]} check.

Definition start (d : dict) (c : script) : world :=
  World {[ 1%positive := d ]} c [].

(** [perform_action] and [create_project_request] on the definition [d]. *)
Definition run (check : bool) (d : dict) (c : script) : outcome dict * world :=
  perform_action (base := base (self_ check)) (self_ check) "Project" 1%positive
    (start d c).

Definition request (check : bool) (d : dict) (c : script) : outcome dict * world :=
  create_project_request (self_ check) 1%positive (start d c).

Definition gone : outcome dict :=
  Raised (ApiError (ApiExc NotFoundError "not found" 404 "Not Found")).
Definition denied : outcome dict :=
  Raised (ApiError (ApiExc ForbiddenError "forbidden" 403 "Forbidden")).
Definition conflict : outcome dict :=
  Raised (ApiError (ApiExc DynamicApiError "already exists" 409 "Conflict")).
Definition broken : outcome dict :=
  Raised (OtherException "connection refused").
Definition found : outcome string := Returned "ProjectRequest".
Definition unknown_kind : outcome string :=
  Failed {[ "msg" := VStr "Failed to find exact match for ProjectRequest" ]}.
Definition object : outcome dict :=
  Returned {[ "kind" := VStr "ProjectRequest" ]}.

(** Definitions with a part missing, and a complete one. *)
Definition no_metadata : dict := {[ "kind" := VStr "Project" ]}.
Definition null_metadata : dict :=
  {[ "kind" := VStr "Project"; "metadata" := VNone ]}.
Definition no_kind : dict := {[ "metadata" := VDict ∅ ]}.
Definition no_api_version : dict :=
  {[ "kind" := VStr "Project"; "metadata" := VDict ∅ ]}.
Definition project (kind : string) : dict :=
  {[ "apiVersion" := VStr "project.openshift.io/v1";
     "kind" := VStr kind;
     "metadata" := VDict {[ "name" := VStr "testing" ]} ]}.

(** Scripts: the object is missing and the request goes through, and the
    ways in which it does not. *)
Definition all_fine : script := Script gone found object.
Definition create_denied : script := Script gone found denied.
Definition create_broken : script := Script gone found broken.
Definition get_broken : script := Script broken found object.
Definition get_denied : script := Script denied found object.
Definition no_request_kind : script := Script gone unknown_kind object.

(** The calls of a request. *)
Definition search : event :=
  EvFindResource "ProjectRequest" (VStr "project.openshift.io/v1") true.
Definition submit : event :=
  EvCreate "ProjectRequest" (project "ProjectRequest").
End Scripted.


(** * Properties *)

Section properties.
Context {client : DynamicClient} {base : KubernetesRawModule}.
Implicit Types (w : world) (d metadata : dict) (self : module_self).
Implicit Types (definition : ref) (resource : Resource).


(** *** Running computations *)

Lemma bind_returned {A B} (m : M A) (f : A → M B) w a w' :
  m w = (Returned a, w') → (m ≫= f) w = f a w'.
Proof. intros Hm. unfold mbind, M_bind. by rewrite Hm. Qed.

Lemma bind_failed {A B} (m : M A) (f : A → M B) w kwargs w' :
  m w = (Failed kwargs, w') → (m ≫= f) w = (Failed kwargs, w').
Proof. intros Hm. unfold mbind, M_bind. by rewrite Hm. Qed.

Lemma bind_raised {A B} (m : M A) (f : A → M B) w e w' :
  m w = (Raised e, w') → (m ≫= f) w = (Raised e, w').
Proof. intros Hm. unfold mbind, M_bind. by rewrite Hm. Qed.

Lemma bind_mret {A} (m : M A) w : (m ≫= mret) w = m w.
Proof. unfold mbind, M_bind. by destruct (m w) as [[?|?|?] ?]. Qed.

Lemma getitem_returned definition k w d v :
  heap w !! definition = Some d → d !! k = Some v →
  getitem definition k w = (Returned v, w).
Proof.
  intros Hd Hk. unfold getitem.
  rewrite (bind_returned _ _ w d w); [by rewrite Hk |].
  unfold deref. by rewrite Hd.
Qed.

Lemma get_method_returned d k w :
  get_method (VDict d) k w = (Returned (dict_get d k VNone), w).
Proof. done. Qed.

Lemma try_except_not_raised {A} (m : M A) handler w o w' :
  m w = (o, w') → (∀ e, o ≠ Raised e) →
  try_except m handler w = (o, w').
Proof. intros Hm Ho. unfold try_except. rewrite Hm. by destruct o; [| |destruct (Ho e)]. Qed.

Lemma try_except_raised {A} (m : M A) handler w e w' :
  m w = (Raised e, w') → try_except m handler w = handler e w'.
Proof. intros Hm. unfold try_except. by rewrite Hm. Qed.

Lemma call_run {A} ev (f : Cluster → outcome A * Cluster) w o c :
  f (cluster w) = (o, c) → call ev f w = (o, after_call ev c w).
Proof. intros Hf. unfold call. by rewrite Hf. Qed.

Lemma setitem_run definition k v w d :
  heap w !! definition = Some d →
  setitem definition k v w =
  (Returned (), World (<[definition := <[k := v]> d]> (heap w)) (cluster w) (calls w)).
Proof.
  intros Hd. unfold setitem.
  rewrite (bind_returned _ _ w d w); [done |].
  unfold deref. by rewrite Hd.
Qed.

Lemma created_eq (o : dict) :
  <["method" := VStr "create"]>
    (<["changed" := VBool true]>
       (<["result" := VDict o]>
          ({[ "changed" := VBool false; "result" := VDict ∅ ]} : dict))) =
  created o.
Proof. reflexivity. Qed.

Lemma created_empty_eq :
  <["method" := VStr "create"]>
    (<["changed" := VBool true]>
       ({[ "changed" := VBool false; "result" := VDict ∅ ]} : dict)) =
  created ∅.
Proof. reflexivity. Qed.

(** *** [create_project_request] *)


Lemma resource_create_run (pr : Resource) definition w d answer c :
  heap w !! definition = Some d →
  client_create pr d (cluster w) = (answer, c) →
  resource_create pr definition w = (answer, after_call (EvCreate pr d) c w).
Proof.
  intros Hd Hc. unfold resource_create.
  rewrite (bind_returned _ _ w d w); [by apply call_run |].
  unfold deref. by rewrite Hd.
Qed.

Lemma create_project_request_run self definition w d api pr c1 :
  heap w !! definition = Some d →
  d !! "apiVersion" = Some api →
  client_find_resource "ProjectRequest" api true (cluster w) = (Returned pr, c1) →
  create_project_request self definition w =
  let w1 := after_call (EvFindResource "ProjectRequest" api true) c1
              (World (<[definition := switched d]> (heap w)) (cluster w) (calls w)) in
  if check_mode self then (Returned (created ∅), w1)
  else
    let '(answer, c2) := client_create pr (switched d) c1 in
    (create_outcome answer, after_call (EvCreate pr (switched d)) c2 w1).
Proof.
  intros Hd Hapi Hfind. unfold create_project_request.
  erewrite bind_returned by (by apply setitem_run).
  erewrite bind_returned; last first.
  { eapply getitem_returned; [apply lookup_insert_eq |].
    by rewrite lookup_insert_ne. }
  erewrite bind_returned by (by apply call_run).
  destruct (check_mode self); simpl.
  - done.
  - destruct (client_create pr (switched d) c1) as [answer c2] eqn:Hcreate.
    set (w1 := after_call _ c1 _).
    assert (resource_create pr definition w1
            = (answer, after_call (EvCreate pr (switched d)) c2 w1)) as Hrun.
    { apply resource_create_run; [apply lookup_insert_eq | done]. }
    destruct answer as [k8s_obj|kwargs|e].
    + erewrite bind_returned; last first.
      { apply try_except_not_raised; [|done]. by erewrite bind_returned. }
      done.
    + erewrite bind_failed; last first.
      { apply try_except_not_raised; [|done]. by erewrite bind_failed. }
      done.
    + assert (∀ handler, try_except
                (resource_create pr definition ≫= λ k8s_obj, mret
                   (<["result" := VDict (to_dict k8s_obj)]>
                      ({[ "changed" := VBool false; "result" := VDict ∅ ]} : dict)))
                handler w1
              = handler e (after_call (EvCreate pr (switched d)) c2 w1)) as Htry.
      { intros handler. apply try_except_raised. by erewrite bind_raised. }
      destruct e; [erewrite bind_failed | erewrite bind_raised ..];
        try done; by rewrite Htry.
Qed.

(** Whatever happens in [create_project_request], the definition comes
    out with its kind overwritten and is otherwise as it was. *)
Lemma create_project_request_heap self definition w d o w' :
  heap w !! definition = Some d →
  create_project_request self definition w = (o, w') →
  heap w' = <[definition := switched d]> (heap w).
Proof.
  intros Hd. unfold create_project_request.
  erewrite bind_returned by (by apply setitem_run).
  set (w0 := World _ _ _).
  assert (heap w0 !! definition = Some (switched d)) as Hd0
    by apply lookup_insert_eq.
  destruct (d !! "apiVersion") as [api|] eqn:Hapi.
  - erewrite bind_returned; last first.
    { eapply getitem_returned; [done |].
      unfold switched. by rewrite lookup_insert_ne. }
    destruct (client_find_resource "ProjectRequest" api true (cluster w0))
      as [[pr|kwargs|e] c1] eqn:Hfind.
    + erewrite bind_returned by (by apply call_run).
      set (w1 := after_call _ c1 _).
      destruct (check_mode self); simpl.
      { intros [= <- <-]. done. }
      destruct (client_create pr (switched d) c1) as [answer c2] eqn:Hcreate.
      assert (resource_create pr definition w1
              = (answer, after_call (EvCreate pr (switched d)) c2 w1)) as Hrun
        by (by apply resource_create_run).
      destruct answer as [k8s_obj|kwargs|e].
      * erewrite bind_returned.
        2:{ apply try_except_not_raised; [|done]. by erewrite bind_returned. }
        by intros [= <- <-].
      * erewrite bind_failed.
        2:{ apply try_except_not_raised; [|done]. by erewrite bind_failed. }
        by intros [= <- <-].
      * assert (∀ handler, try_except
                  (resource_create pr definition ≫= λ k8s_obj, mret
                     (<["result" := VDict (to_dict k8s_obj)]>
                        ({[ "changed" := VBool false; "result" := VDict ∅ ]} : dict)))
                  handler w1
                = handler e (after_call (EvCreate pr (switched d)) c2 w1)) as Htry.
        { intros handler. apply try_except_raised. by erewrite bind_raised. }
        destruct e; [erewrite bind_failed | erewrite bind_raised ..];
          try (by rewrite Htry); by intros [= <- <-].
    + erewrite bind_failed by (by apply call_run). by intros [= <- <-].
    + erewrite bind_raised by (by apply call_run). by intros [= <- <-].
  - erewrite bind_raised; last first.
    { unfold getitem. erewrite bind_returned; last first.
      { unfold deref. by rewrite Hd0. }
      unfold switched. rewrite lookup_insert_ne by done. by rewrite Hapi. }
    by intros [= <- <-].
Qed.

(** *** [perform_action] *)

Lemma py_eq_str_true (v : value) (s : string) :
  py_eq_str v s = true ↔ v = VStr s.
Proof.
  destruct v; simpl; try (split; [done | intros [=]]).
  rewrite String.eqb_eq. split; [by intros -> | by intros [= ->]].
Qed.

Lemma provisioning_kind (kind : value) :
  py_in_strs kind ["Project"; "ProjectRequest"] = true ↔
  kind = VStr "Project" ∨ kind = VStr "ProjectRequest".
Proof.
  unfold py_in_strs. simpl.
  rewrite !orb_true_iff, !py_eq_str_true. intuition discriminate.
Qed.

Lemma probes_absent self kind :
  params self !! "state" = Some (VStr "absent") → probes self kind = false.
Proof.
  intros Hs. unfold probes, dict_get. rewrite Hs. simpl. apply andb_false_r.
Qed.

Lemma probes_other_kind self kind :
  kind ≠ VStr "Project" → kind ≠ VStr "ProjectRequest" → probes self kind = false.
Proof.
  intros H1 H2. unfold probes.
  destruct (py_in_strs kind _) eqn:Hin; [|done].
  apply provisioning_kind in Hin. by destruct Hin.
Qed.

Lemma probes_present self kind :
  kind = VStr "Project" ∨ kind = VStr "ProjectRequest" →
  params self !! "state" = Some (VStr "present") →
  probes self kind = true.
Proof.
  intros Hk Hs. unfold probes, dict_get. rewrite Hs.
  apply provisioning_kind in Hk. by rewrite Hk.
Qed.


Lemma perform_action_prologue self resource definition w d metadata kind :
  heap w !! definition = Some d →
  d !! "metadata" = Some (VDict metadata) →
  d !! "kind" = Some kind →
  perform_action self resource definition w =
  ((if probes self kind then
      try_except
        (resource_get resource (dict_get metadata "name" VNone)
           (dict_get metadata "namespace" VNone);; mret None)
        (λ e, match e with
              | ApiError exc =>
                  if is_notfound_or_forbidden exc then
                    result ← create_project_request self definition;
                    mret (Some result)
                  else
                    fail_json
                      (api_failure "Failed to retrieve requested object: " exc)
              | _ => raise e
              end)
    else mret None) ≫= λ returned,
   match returned with
   | Some result => mret result
   | None => super_perform_action self resource definition
   end) w.
Proof.
  intros Hd Hm Hk. unfold perform_action. fold (probes self kind).
  do 2 (erewrite bind_returned by (by eapply getitem_returned);
        erewrite bind_returned by apply get_method_returned).
  by erewrite bind_returned by (by eapply getitem_returned).
Qed.

Lemma perform_action_no_probe self resource definition w d metadata kind :
  heap w !! definition = Some d →
  d !! "metadata" = Some (VDict metadata) →
  d !! "kind" = Some kind →
  probes self kind = false →
  perform_action self resource definition w =
  super_perform_action self resource definition w.
Proof.
  intros Hd Hm Hk Hp.
  rewrite (perform_action_prologue _ _ _ _ _ _ _ Hd Hm Hk), Hp.
  reflexivity.
Qed.

Lemma perform_action_probe self resource definition w d metadata kind answer c :
  heap w !! definition = Some d →
  d !! "metadata" = Some (VDict metadata) →
  d !! "kind" = Some kind →
  probes self kind = true →
  client_get resource (dict_get metadata "name" VNone)
    (dict_get metadata "namespace" VNone) (cluster w) = (answer, c) →
  perform_action self resource definition w =
  on_probe self resource definition answer
    (after_call (EvGet resource (dict_get metadata "name" VNone)
                   (dict_get metadata "namespace" VNone)) c w).
Proof.
  intros Hd Hm Hk Hp Hget.
  rewrite (perform_action_prologue _ _ _ _ _ _ _ Hd Hm Hk), Hp.
  set (w1 := after_call _ c w).
  assert (resource_get resource (dict_get metadata "name" VNone)
            (dict_get metadata "namespace" VNone) w = (answer, w1)) as Hrun
    by (by apply call_run).
  destruct answer as [obj|kwargs|e]; simpl.
  - erewrite bind_returned; last first.
    { apply try_except_not_raised; [|done]. by erewrite bind_returned. }
    done.
  - erewrite bind_failed; last first.
    { apply try_except_not_raised; [|done]. by erewrite bind_failed. }
    done.
  - assert (∀ handler,
              try_except
                (resource_get resource (dict_get metadata "name" VNone)
                   (dict_get metadata "namespace" VNone);; mret (@None dict))
                handler w
              = handler e w1) as Htry.
    { intros handler. apply try_except_raised. by erewrite bind_raised. }
    unfold mbind at 1, M_bind at 1. rewrite Htry.
    destruct e as [exc| | |]; try done.
    destruct (is_notfound_or_forbidden exc); [|done].
    unfold mbind, M_bind.
    by destruct (create_project_request self definition w1) as [[?|?|?] ?].
Qed.

Lemma getitem_missing definition k w d :
  heap w !! definition = Some d → d !! k = None →
  getitem definition k w = (Raised (KeyError k), w).
Proof.
  intros Hd Hk. unfold getitem.
  rewrite (bind_returned _ _ w d w); [by rewrite Hk |].
  unfold deref. by rewrite Hd.
Qed.

Lemma getitem_no_object definition k w :
  heap w !! definition = None →
  getitem definition k w = (Raised (OtherException "no such object"), w).
Proof.
  intros Hd. unfold getitem. apply bind_raised. unfold deref. by rewrite Hd.
Qed.

Lemma get_method_raised (v : value) k w :
  (∀ d, v ≠ VDict d) →
  get_method v k w = (Raised (AttributeError "get"), w).
Proof. intros Hv. destruct v; try done. by destruct (Hv d). Qed.

(** A definition that [perform_action] cannot read makes it raise before
    anything else happens. *)
Lemma perform_action_ill_formed self resource definition w :
  (∀ d metadata kind,
     heap w !! definition = Some d →
     d !! "metadata" = Some (VDict metadata) →
     d !! "kind" = Some kind → False) →
  ∃ e, perform_action self resource definition w = (Raised e, w).
Proof.
  intros Hill. unfold perform_action.
  destruct (heap w !! definition) as [d|] eqn:Hd; last first.
  { eexists. apply bind_raised. by apply getitem_no_object. }
  destruct (d !! "metadata") as [v|] eqn:Hm; last first.
  { eexists. apply bind_raised. by eapply getitem_missing. }
  erewrite bind_returned by (by eapply getitem_returned).
  destruct v as [| | | | |metadata];
    try (eexists; apply bind_raised; by apply get_method_raised).
  erewrite bind_returned by apply get_method_returned.
  erewrite bind_returned by (by eapply getitem_returned).
  erewrite bind_returned by apply get_method_returned.
  destruct (d !! "kind") as [kind|] eqn:Hk.
  { destruct (Hill d metadata kind); done. }
  eexists. apply bind_raised. by eapply getitem_missing.
Qed.

(** ** Reconciling one well-formed definition

    The definition is a dictionary [d] with a [metadata] dictionary and a
    [kind], as the data model requires. *)

Section reconciliation.
Variables (self : module_self) (resource : Resource) (definition : ref).
Variables (w : world) (d metadata : dict) (kind : value).
Hypothesis definition_object : heap w !! definition = Some d.
Hypothesis definition_metadata : d !! "metadata" = Some (VDict metadata).
Hypothesis definition_kind : d !! "kind" = Some kind.

Local Abbreviation name := (dict_get metadata "name" VNone).
Local Abbreviation namespace := (dict_get metadata "namespace" VNone).
Local Abbreviation probe := (EvGet resource name namespace).

(** C1, as amended.  For a kind in the provisioning set and state
    [present], when the lookup of the live object fails with
    [NotFoundError] and the create of the [ProjectRequest] that follows
    succeeds, the result has [changed] true and [method] equal to
    "create". *)
Theorem provision_reports_changed_and_create
    (api : value) exc c1 (pr : Resource) c2 k8s_obj c3 :
  d !! "apiVersion" = Some api →
  kind = VStr "Project" ∨ kind = VStr "ProjectRequest" →
  params self !! "state" = Some (VStr "present") →
  check_mode self = false →
  client_get resource name namespace (cluster w) = (Raised (ApiError exc), c1) →
  exc_class exc = NotFoundError →
  client_find_resource "ProjectRequest" api true c1 = (Returned pr, c2) →
  client_create pr (switched d) c2 = (Returned k8s_obj, c3) →
  ∃ result w',
    perform_action self resource definition w = (Returned result, w') ∧
    result !! "changed" = Some (VBool true) ∧
    result !! "method" = Some (VStr "create").
Proof.
  intros Hapi Hin Hstate Hcheck Hget Hclass Hfind Hcreate.
  erewrite perform_action_probe by eauto using probes_present.
  simpl. unfold is_notfound_or_forbidden. rewrite Hclass.
  erewrite create_project_request_run by done.
  simpl. rewrite Hcheck, Hcreate. simpl.
  by eexists _, _.
Qed.

(** C2, as amended.  For state [present] and a kind in the provisioning
    set, when the lookup of the live object raises [NotFoundError] or
    [ForbiddenError], the engine does not go on to the base implementation
    but to [create_project_request], in either case alike: the kind of the
    definition is overwritten with "ProjectRequest", the resource of that
    kind is looked up for the [apiVersion] of the definition and, when it is
    found, the definition is sent to it in a create call unless the module
    runs in check mode, where nothing is sent.  Every create of the run goes
    to the resource found, with a body of kind "ProjectRequest" that is
    otherwise the definition: a "Project" is never created under its own
    kind, while a definition that already is a "ProjectRequest" is created
    as it stands, under its own kind. *)
Theorem unreadable_project_is_requested (api : value) exc c1 (pr : Resource) c2 :
  d !! "apiVersion" = Some api →
  kind = VStr "Project" ∨ kind = VStr "ProjectRequest" →
  params self !! "state" = Some (VStr "present") →
  client_get resource name namespace (cluster w) = (Raised (ApiError exc), c1) →
  exc_class exc = NotFoundError ∨ exc_class exc = ForbiddenError →
  client_find_resource "ProjectRequest" api true c1 = (Returned pr, c2) →
  perform_action self resource definition w =
    create_project_request self definition
      (World (heap w) c1 (calls w ++ [probe])) ∧
  ∃ o w' new,
    perform_action self resource definition w = (o, w') ∧
    heap w' = <[definition := <["kind" := VStr "ProjectRequest"]> d]> (heap w) ∧
    calls w' = calls w ++ new ∧
    new = probe :: EvFindResource "ProjectRequest" api true ::
            (if check_mode self then [] else [EvCreate pr (switched d)]) ∧
    o = (if check_mode self then Returned (created ∅)
         else create_outcome (client_create pr (switched d) c2).1) ∧
    (∀ r b,
       EvCreate r b ∈ new →
       r = pr ∧
       b !! "kind" = Some (VStr "ProjectRequest") ∧
       (∀ k, k ≠ "kind" → b !! k = d !! k) ∧
       (kind = VStr "Project" → b !! "kind" ≠ d !! "kind") ∧
       (kind = VStr "ProjectRequest" → b = d)).
Proof.
  intros Hapi Hin Hstate Hget Hclass Hfind.
  erewrite perform_action_probe by eauto using probes_present.
  simpl. unfold is_notfound_or_forbidden.
  replace (match exc_class exc with
           | DynamicApiError => false | _ => true end) with true
    by (by destruct Hclass as [-> | ->]).
  split; [done |].
  erewrite create_project_request_run by done.
  assert (∀ r b,
            EvCreate r b ∈ [probe; EvFindResource "ProjectRequest" api true;
                            EvCreate pr (switched d)] →
            r = pr ∧
            b !! "kind" = Some (VStr "ProjectRequest") ∧
            (∀ k, k ≠ "kind" → b !! k = d !! k) ∧
            (kind = VStr "Project" → b !! "kind" ≠ d !! "kind") ∧
            (kind = VStr "ProjectRequest" → b = d)) as Hbody.
  { intros r b Hel.
    apply elem_of_cons in Hel as [[=] | Hel].
    apply elem_of_cons in Hel as [[=] | Hel].
    apply list_elem_of_singleton in Hel as [= -> ->].
    unfold switched. split; [done |].
    split; [apply lookup_insert_eq |].
    split; [by intros k Hne; rewrite lookup_insert_ne |].
    split.
    - intros ->. rewrite lookup_insert_eq, definition_kind. by intros [=].
    - intros ->. by apply insert_id. }
  simpl. destruct (check_mode self).
  - eexists _, _, _. split; [done |]. simpl.
    split; [done |]. split; [by rewrite <-(assoc_L (++)) |].
    split; [done |]. split; [done |].
    intros r b Hel. apply Hbody.
    apply elem_of_cons in Hel as [[=] | Hel].
    apply elem_of_cons in Hel as [[=] | Hel].
    by apply elem_of_nil in Hel.
  - destruct (client_create pr (switched d) c2) as [answer c3].
    eexists _, _, _. split; [done |]. simpl.
    split; [done |]. split; [by rewrite <-!(assoc_L (++)) |].
    by repeat (split; [done |]).
Qed.

(** C3.  For state [present] and a kind in the provisioning set, when
    the lookup of the live object fails with an API error that is
    neither [NotFoundError] nor [ForbiddenError], the run ends in
    [fail_json] with [msg], [error], [status] and [reason] taken from
    the error; the lookup is the only call made and the definition is
    untouched, so no [ProjectRequest] is created. *)
Theorem other_api_error_on_probe_is_fatal exc c1 :
  kind = VStr "Project" ∨ kind = VStr "ProjectRequest" →
  params self !! "state" = Some (VStr "present") →
  client_get resource name namespace (cluster w) = (Raised (ApiError exc), c1) →
  exc_class exc ≠ NotFoundError →
  exc_class exc ≠ ForbiddenError →
  ∃ kwargs w',
    perform_action self resource definition w = (Failed kwargs, w') ∧
    kwargs !! "msg" =
      Some (VStr ("Failed to retrieve requested object: " +:+ body exc)) ∧
    kwargs !! "error" = Some (VInt (status exc)) ∧
    kwargs !! "status" = Some (VInt (status exc)) ∧
    kwargs !! "reason" = Some (VStr (reason exc)) ∧
    heap w' = heap w ∧
    calls w' = calls w ++ [probe] ∧
    existsb is_create (calls w') = existsb is_create (calls w).
Proof.
  intros Hin Hstate Hget Hnf Hfb.
  erewrite perform_action_probe by eauto using probes_present.
  simpl. unfold is_notfound_or_forbidden.
  destruct (exc_class exc); [done | done |].
  eexists _, _. split; [done |]. simpl.
  repeat (split; [done |]).
  rewrite existsb_app. simpl. by rewrite !orb_false_r.
Qed.

(** C4.  With state [absent] the provisioning path is not entered,
    whatever the kind: [perform_action] is the base implementation run
    in the very same world, so neither the lookup nor a create of a
    [ProjectRequest] precedes it. *)
Theorem absent_never_provisions :
  params self !! "state" = Some (VStr "absent") →
  perform_action self resource definition w =
  super_perform_action self resource definition w.
Proof.
  intros Hstate. eapply perform_action_no_probe; eauto using probes_absent.
Qed.

(** C6.  For state [present] and a kind in the provisioning set, when
    the lookup of the live object succeeds, [perform_action] is the base
    implementation run in the world the lookup left: the definition is
    as it was and the lookup is the only call made so far, so no
    [ProjectRequest] has been created. *)
Theorem existing_project_is_left_to_base k8s_obj c1 :
  kind = VStr "Project" ∨ kind = VStr "ProjectRequest" →
  params self !! "state" = Some (VStr "present") →
  client_get resource name namespace (cluster w) = (Returned k8s_obj, c1) →
  perform_action self resource definition w =
  super_perform_action self resource definition
    (World (heap w) c1 (calls w ++ [probe])).
Proof.
  intros Hin Hstate Hget.
  by erewrite perform_action_probe by eauto using probes_present.
Qed.

(** C7.  The provisioning kinds are "Project" and "ProjectRequest" and
    nothing in [self] changes that: for any other kind
    [perform_action] is the base implementation run in the same world,
    and for these two kinds, unless the state is [absent], it first
    looks the object up and goes on from the answer. *)
Theorem provisioning_kinds_are_fixed :
  (kind ≠ VStr "Project" → kind ≠ VStr "ProjectRequest" →
   perform_action self resource definition w =
   super_perform_action self resource definition w) ∧
  (kind = VStr "Project" ∨ kind = VStr "ProjectRequest" →
   dict_get (params self) "state" VNone ≠ VStr "absent" →
   perform_action self resource definition w =
   on_probe self resource definition
     (client_get resource name namespace (cluster w)).1
     (World (heap w) (client_get resource name namespace (cluster w)).2
        (calls w ++ [probe]))).
Proof.
  split.
  - intros H1 H2. eapply perform_action_no_probe; eauto using probes_other_kind.
  - intros Hin Hstate.
    destruct (client_get resource name namespace (cluster w))
      as [answer c] eqn:Hget.
    eapply perform_action_probe; eauto.
    unfold probes. apply provisioning_kind in Hin. rewrite Hin. simpl.
    apply negb_true_iff, not_true_is_false.
    by rewrite py_eq_str_true.
Qed.

(** C8.  When a provisioning submission succeeds the result is returned
    at once, whatever [self.params] says about waiting: the calls made
    are the lookup, the search for the [ProjectRequest] resource and the
    create, none of them a wait, the cluster is left as the create left
    it, and the result has no [duration]. *)
Theorem provisioning_does_not_wait
    (api : value) exc c1 (pr : Resource) c2 k8s_obj c3 :
  d !! "apiVersion" = Some api →
  kind = VStr "Project" ∨ kind = VStr "ProjectRequest" →
  params self !! "state" = Some (VStr "present") →
  check_mode self = false →
  client_get resource name namespace (cluster w) = (Raised (ApiError exc), c1) →
  exc_class exc = NotFoundError ∨ exc_class exc = ForbiddenError →
  client_find_resource "ProjectRequest" api true c1 = (Returned pr, c2) →
  client_create pr (switched d) c2 = (Returned k8s_obj, c3) →
  ∃ result w',
    perform_action self resource definition w = (Returned result, w') ∧
    result !! "duration" = None ∧
    cluster w' = c3 ∧
    calls w' =
      calls w ++ [probe; EvFindResource "ProjectRequest" api true;
                  EvCreate pr (switched d)] ∧
    existsb is_wait (calls w') = existsb is_wait (calls w).
Proof.
  intros Hapi Hin Hstate Hcheck Hget Hclass Hfind Hcreate.
  erewrite perform_action_probe by eauto using probes_present.
  simpl. unfold is_notfound_or_forbidden.
  replace (match exc_class exc with
           | DynamicApiError => false | _ => true end) with true
    by (by destruct Hclass as [-> | ->]).
  erewrite create_project_request_run by done.
  simpl. rewrite Hcheck, Hcreate. simpl.
  eexists _, _. split; [done |]. simpl.
  rewrite <-!(assoc_L (++)). simpl.
  repeat (split; [done |]).
  rewrite existsb_app. simpl. by rewrite !orb_false_r.
Qed.
End reconciliation.

(** ** The definition as the caller sees it afterwards *)

(** C5, as amended.  [perform_action] and the provisioning path change
    exactly one field of the caller's definition, and only on the
    provisioning path.  When that path is entered, the run is
    [create_project_request] and, however it ends, the definition is left
    with its [kind] overwritten with "ProjectRequest", every other field and
    every other object being as the caller supplied them.  When it is not
    entered, either the base implementation is entered with every object as
    it was, or the run ends with every object as it was. *)
Theorem definition_changes_only_in_kind
    (self : module_self) (resource : Resource) (definition : ref) (w : world) :
  (∀ d c1,
     enters_provisioning self resource definition w d c1 →
     (∃ w1,
        heap w1 = heap w ∧ cluster w1 = c1 ∧
        perform_action self resource definition w =
        create_project_request self definition w1) ∧
     ∀ o w',
       perform_action self resource definition w = (o, w') →
       heap w' = <[definition := <["kind" := VStr "ProjectRequest"]> d]> (heap w) ∧
       (∃ d', heap w' !! definition = Some d' ∧
              d' !! "kind" = Some (VStr "ProjectRequest") ∧
              ∀ k, k ≠ "kind" → d' !! k = d !! k) ∧
       (∀ r, r ≠ definition → heap w' !! r = heap w !! r)) ∧
  ((∀ d c1, ¬ enters_provisioning self resource definition w d c1) →
   (∃ w1,
      perform_action self resource definition w =
      super_perform_action self resource definition w1 ∧
      heap w1 = heap w) ∨
   (∃ o w',
      perform_action self resource definition w = (o, w') ∧
      heap w' = heap w)).
Proof.
  split.
  - intros d c1 (metadata & kind & exc & Hd & Hm & Hk & Hin & Hstate & Hget & Hclass).
    assert (probes self kind = true) as Hp.
    { unfold probes. apply provisioning_kind in Hin. rewrite Hin. simpl.
      apply negb_true_iff, not_true_is_false. by rewrite py_eq_str_true. }
    erewrite perform_action_probe by done.
    simpl. unfold is_notfound_or_forbidden.
    replace (match exc_class exc with
             | DynamicApiError => false | _ => true end) with true
      by (by destruct Hclass as [-> | ->]).
    split.
    { eexists. split; [|split]; [| |reflexivity]; done. }
    intros o w' Hrun.
    apply (create_project_request_heap _ _ _ d) in Hrun; [|done].
    unfold switched in Hrun. rewrite Hrun.
    split; [done |]. split.
    + eexists. split; [apply lookup_insert_eq |].
      split; [apply lookup_insert_eq |].
      intros k Hne. by rewrite lookup_insert_ne.
    + intros r Hne. by rewrite lookup_insert_ne.
  - intros Hnot.
    destruct (heap w !! definition) as [d|] eqn:Hd; last first.
    { right. destruct (perform_action_ill_formed self resource definition w)
        as [e He]; [intros; congruence |]. eauto. }
    destruct (d !! "metadata") as [v|] eqn:Hm; last first.
    { right. destruct (perform_action_ill_formed self resource definition w)
        as [e He]; [intros; congruence |]. eauto. }
    destruct (d !! "kind") as [kind|] eqn:Hk; last first.
    { right. destruct (perform_action_ill_formed self resource definition w)
        as [e He]; [intros; congruence |]. eauto. }
    destruct v as [| | | | |metadata];
      try (right;
           destruct (perform_action_ill_formed self resource definition w)
             as [e He]; [intros; congruence | by eauto]).
    destruct (probes self kind) eqn:Hp; last first.
    { left. exists w. split; [|done]. by eapply perform_action_no_probe. }
    destruct (client_get resource (dict_get metadata "name" VNone)
                (dict_get metadata "namespace" VNone) (cluster w))
      as [answer c] eqn:Hget.
    erewrite perform_action_probe by done.
    set (w1 := after_call _ c w).
    destruct answer as [k8s_obj|kwargs|[exc| | |]]; simpl.
    { left. by exists w1. }
    all: try (right; by eauto).
    destruct (is_notfound_or_forbidden exc) eqn:Hclass; [|right; by eauto].
    destruct (Hnot d c). exists metadata, kind, exc.
    unfold probes in Hp. apply andb_true_iff in Hp as [Hin Hstate].
    apply provisioning_kind in Hin.
    apply negb_true_iff in Hstate.
    repeat (split; [done |]).
    split.
    { intros Habs. apply py_eq_str_true in Habs. congruence. }
    split; [done |].
    unfold is_notfound_or_forbidden in Hclass.
    destruct (exc_class exc); [by left | by right | done].
Qed.

(** ** Construction *)

(** C9 fails on the code.  When the community.kubernetes collection could
    not be imported, constructing the module, and with it the whole run,
    ends before any call has reached the cluster and before anything is
    reconciled, but not in a structured error: [fail_json] is called on an
    instance that has not been constructed and raises [AttributeError], so
    no [msg], [exception] or [error] is ever reported. *)
Theorem missing_collection_raises_before_reporting (g : globals) (w : world) :
  HAS_KUBERNETES_COLLECTION g = false →
  init g w = (Raised (AttributeError "cleanup_files"), w) ∧
  main g w = (Raised (AttributeError "cleanup_files"), w) ∧
  (∀ kwargs w', init g w ≠ (Failed kwargs, w')) ∧
  (∀ kwargs w', main g w ≠ (Failed kwargs, w')).
Proof.
  intros Hhas.
  assert (init g w = (Raised (AttributeError "cleanup_files"), w)) as Hinit.
  { unfold init. by rewrite Hhas. }
  assert (main g w = (Raised (AttributeError "cleanup_files"), w)) as Hmain.
  { unfold main. by erewrite bind_raised. }
  rewrite Hinit, Hmain. done.
Qed.

(** ** Check mode *)

(** C10.  Once the [ProjectRequest] resource is found,
    [create_project_request] in check mode makes no create call and still
    returns [changed] true with an empty [result]; out of check mode,
    when the create returns an object, [result] is that object's
    [to_dict()]. *)
Theorem check_mode_creates_nothing
    (self : module_self) (definition : ref) (w : world) (d : dict)
    (api : value) (pr : Resource) c1 :
  heap w !! definition = Some d →
  d !! "apiVersion" = Some api →
  client_find_resource "ProjectRequest" api true (cluster w) = (Returned pr, c1) →
  (check_mode self = true →
   ∃ result w',
     create_project_request self definition w = (Returned result, w') ∧
     result !! "changed" = Some (VBool true) ∧
     result !! "result" = Some (VDict ∅) ∧
     cluster w' = c1 ∧
     calls w' = calls w ++ [EvFindResource "ProjectRequest" api true] ∧
     existsb is_create (calls w') = existsb is_create (calls w)) ∧
  (check_mode self = false →
   ∀ k8s_obj c2,
     client_create pr (switched d) c1 = (Returned k8s_obj, c2) →
     ∃ result w',
       create_project_request self definition w = (Returned result, w') ∧
       result !! "changed" = Some (VBool true) ∧
       result !! "result" = Some (VDict (to_dict k8s_obj)) ∧
       calls w' = calls w ++ [EvFindResource "ProjectRequest" api true;
                              EvCreate pr (switched d)]).
Proof.
  intros Hd Hapi Hfind.
  erewrite create_project_request_run by done. simpl.
  split.
  - intros ->. eexists _, _. split; [done |]. simpl.
    repeat (split; [done |]).
    rewrite existsb_app. simpl. by rewrite !orb_false_r.
  - intros -> k8s_obj c2 ->. simpl. eexists _, _. split; [done |]. simpl.
    repeat (split; [done |]).
    by rewrite <-(assoc_L (++)).
Qed.
End properties.

(** * Errors and edge cases *)

Section edge_cases.
Context {client : DynamicClient} {base : KubernetesRawModule}.
Implicit Types (w : world) (d metadata : dict) (self : module_self).
Implicit Types (definition : ref) (resource : Resource).

(** Every way [create_project_request] can go on a definition that exists. *)
Lemma create_project_request_cases self definition w d :
  heap w !! definition = Some d →
  create_project_request self definition w =
  let w0 := World (<[definition := switched d]> (heap w)) (cluster w) (calls w) in
  match d !! "apiVersion" with
  | None => (Raised (KeyError "apiVersion"), w0)
  | Some api =>
      let find := EvFindResource "ProjectRequest" api true in
      match client_find_resource "ProjectRequest" api true (cluster w) with
      | (Returned pr, c1) =>
          if check_mode self then (Returned (created ∅), after_call find c1 w0)
          else
            (create_outcome (client_create pr (switched d) c1).1,
             after_call (EvCreate pr (switched d))
               (client_create pr (switched d) c1).2 (after_call find c1 w0))
      | (Failed kwargs, c1) => (Failed kwargs, after_call find c1 w0)
      | (Raised e, c1) => (Raised e, after_call find c1 w0)
      end
  end.
Proof.
  intros Hd. simpl.
  destruct (d !! "apiVersion") as [api|] eqn:Hapi.
  - destruct (client_find_resource "ProjectRequest" api true (cluster w))
      as [[pr|kwargs|e] c1] eqn:Hfind.
    + erewrite create_project_request_run by done. simpl.
      destruct (check_mode self); [done |].
      by destruct (client_create pr (switched d) c1).
    + unfold create_project_request.
      erewrite bind_returned by (by apply setitem_run).
      erewrite bind_returned; last first.
      { eapply getitem_returned; [apply lookup_insert_eq |].
        by rewrite lookup_insert_ne. }
      by erewrite bind_failed by (by apply call_run).
    + unfold create_project_request.
      erewrite bind_returned by (by apply setitem_run).
      erewrite bind_returned; last first.
      { eapply getitem_returned; [apply lookup_insert_eq |].
        by rewrite lookup_insert_ne. }
      by erewrite bind_raised by (by apply call_run).
  - unfold create_project_request.
    erewrite bind_returned by (by apply setitem_run).
    erewrite bind_raised; last first.
    { eapply getitem_missing; [apply lookup_insert_eq |].
      by rewrite lookup_insert_ne. }
    done.
Qed.
Lemma request_calls_in_check_mode self definition w d o w' :
  heap w !! definition = Some d →
  check_mode self = true →
  create_project_request self definition w = (o, w') →
  calls w' = calls w ∨
  ∃ api, calls w' = calls w ++ [EvFindResource "ProjectRequest" api true].
Proof.
  intros Hd Hcheck. rewrite (create_project_request_cases _ _ _ _ Hd). simpl.
  rewrite Hcheck.
  destruct (d !! "apiVersion") as [api|]; [|intros [= <- <-]; by left].
  destruct (client_find_resource "ProjectRequest" api true (cluster w))
    as [[pr|kwargs|e] c1]; intros [= <- <-]; right; by exists api.
Qed.

(** ** Definitions that cannot be read *)

(** X1.  A definition without [metadata] makes [perform_action] raise
    [KeyError] for that key, whatever the state and the kind: nothing is
    called, nothing is changed and the base implementation is not reached. *)
Theorem missing_metadata_raises self resource definition w d :
  heap w !! definition = Some d →
  d !! "metadata" = None →
  perform_action self resource definition w = (Raised (KeyError "metadata"), w).
Proof.
  intros Hd Hm. unfold perform_action.
  apply bind_raised. by eapply getitem_missing.
Qed.

(** X2.  A definition whose [metadata] is not a dictionary makes
    [perform_action] raise [AttributeError] on [.get], in the unchanged
    world. *)
Theorem metadata_without_get_raises self resource definition w d (v : value) :
  heap w !! definition = Some d →
  d !! "metadata" = Some v →
  (∀ metadata, v ≠ VDict metadata) →
  perform_action self resource definition w = (Raised (AttributeError "get"), w).
Proof.
  intros Hd Hm Hv. unfold perform_action.
  erewrite bind_returned by (by eapply getitem_returned).
  apply bind_raised. by apply get_method_raised.
Qed.

(** X3.  A definition with [metadata] but without [kind] makes
    [perform_action] raise [KeyError] for [kind], also when the state is
    [absent]: the kind is read before the state is compared. *)
Theorem missing_kind_raises self resource definition w d metadata :
  heap w !! definition = Some d →
  d !! "metadata" = Some (VDict metadata) →
  d !! "kind" = None →
  perform_action self resource definition w = (Raised (KeyError "kind"), w).
Proof.
  intros Hd Hm Hk. unfold perform_action.
  do 2 (erewrite bind_returned by (by eapply getitem_returned);
        erewrite bind_returned by apply get_method_returned).
  apply bind_raised. by eapply getitem_missing.
Qed.

(** ** Failures on the provisioning path *)

(** X4.  Out of check mode, an API error on the create of the
    [ProjectRequest] is fatal whatever its class, [NotFoundError] and
    [ForbiddenError] included: the module exits through [fail_json] with
    [msg], [error], [status] and [reason] of the error, and the caller's
    definition keeps the overwritten kind. *)
Theorem create_api_error_is_fatal
    self definition w d (api : value) (pr : Resource) c1 exc c2 :
  heap w !! definition = Some d →
  d !! "apiVersion" = Some api →
  check_mode self = false →
  client_find_resource "ProjectRequest" api true (cluster w) = (Returned pr, c1) →
  client_create pr (switched d) c1 = (Raised (ApiError exc), c2) →
  ∃ kwargs w',
    create_project_request self definition w = (Failed kwargs, w') ∧
    kwargs !! "msg" = Some (VStr ("Failed to create object: " +:+ body exc)) ∧
    kwargs !! "error" = Some (VInt (status exc)) ∧
    kwargs !! "status" = Some (VInt (status exc)) ∧
    kwargs !! "reason" = Some (VStr (reason exc)) ∧
    heap w' = <[definition := <["kind" := VStr "ProjectRequest"]> d]> (heap w) ∧
    cluster w' = c2 ∧
    calls w' = calls w ++ [EvFindResource "ProjectRequest" api true;
                           EvCreate pr (switched d)].
Proof.
  intros Hd Hapi Hcheck Hfind Hcreate.
  rewrite (create_project_request_cases _ _ _ _ Hd). simpl.
  rewrite Hapi, Hfind, Hcheck, Hcreate. simpl.
  eexists _, _. split; [done |]. simpl.
  repeat (split; [done |]). by rewrite <-(assoc_L (++)).
Qed.

(** X5.  An exception on the create that is not an API error is not caught:
    it leaves [create_project_request] as it is, after the create was sent
    and with the kind of the definition overwritten. *)
Theorem create_exception_propagates
    self definition w d (api : value) (pr : Resource) c1 e c2 :
  heap w !! definition = Some d →
  d !! "apiVersion" = Some api →
  check_mode self = false →
  client_find_resource "ProjectRequest" api true (cluster w) = (Returned pr, c1) →
  client_create pr (switched d) c1 = (Raised e, c2) →
  (∀ exc, e ≠ ApiError exc) →
  create_project_request self definition w =
  (Raised e,
   World (<[definition := <["kind" := VStr "ProjectRequest"]> d]> (heap w)) c2
     (calls w ++ [EvFindResource "ProjectRequest" api true;
                  EvCreate pr (switched d)])).
Proof.
  intros Hd Hapi Hcheck Hfind Hcreate He.
  rewrite (create_project_request_cases _ _ _ _ Hd). simpl.
  rewrite Hapi, Hfind, Hcheck, Hcreate. simpl.
  unfold after_call. simpl. rewrite <-(assoc_L (++)). simpl.
  destruct e as [exc| | |]; [by destruct (He exc) | done ..].
Qed.

(** X6.  An exception on the lookup that is not an API error is not caught
    either: [perform_action] raises it after the lookup, without entering
    the provisioning path or the base implementation and without touching
    the definition. *)
Theorem get_exception_propagates
    self resource definition w d metadata (kind : value) e c1 :
  heap w !! definition = Some d →
  d !! "metadata" = Some (VDict metadata) →
  d !! "kind" = Some kind →
  kind = VStr "Project" ∨ kind = VStr "ProjectRequest" →
  params self !! "state" = Some (VStr "present") →
  client_get resource (dict_get metadata "name" VNone)
    (dict_get metadata "namespace" VNone) (cluster w) = (Raised e, c1) →
  (∀ exc, e ≠ ApiError exc) →
  perform_action self resource definition w =
  (Raised e,
   World (heap w) c1
     (calls w ++ [EvGet resource (dict_get metadata "name" VNone)
                    (dict_get metadata "namespace" VNone)])).
Proof.
  intros Hd Hm Hk Hin Hstate Hget He.
  erewrite perform_action_probe by eauto using probes_present.
  destruct e as [exc| | |]; [by destruct (He exc) | done ..].
Qed.

(** X7.  When the [ProjectRequest] resource cannot be found and
    [find_resource] fails the module, the failure is the outcome of
    [create_project_request]: no create is sent, yet the kind of the
    caller's definition has already been overwritten. *)
Theorem unresolved_request_kind_is_fatal
    self definition w d (api : value) kwargs c1 :
  heap w !! definition = Some d →
  d !! "apiVersion" = Some api →
  client_find_resource "ProjectRequest" api true (cluster w) = (Failed kwargs, c1) →
  create_project_request self definition w =
  (Failed kwargs,
   World (<[definition := <["kind" := VStr "ProjectRequest"]> d]> (heap w)) c1
     (calls w ++ [EvFindResource "ProjectRequest" api true])).
Proof.
  intros Hd Hapi Hfind.
  rewrite (create_project_request_cases _ _ _ _ Hd). simpl.
  by rewrite Hapi, Hfind.
Qed.

(** X8.  A definition without [apiVersion] makes [create_project_request]
    raise [KeyError] for that key before any call to the cluster, but after
    the kind of the definition has been overwritten. *)
Theorem missing_api_version_raises self definition w d :
  heap w !! definition = Some d →
  d !! "apiVersion" = None →
  create_project_request self definition w =
  (Raised (KeyError "apiVersion"),
   World (<[definition := <["kind" := VStr "ProjectRequest"]> d]> (heap w))
     (cluster w) (calls w)).
Proof.
  intros Hd Hapi.
  rewrite (create_project_request_cases _ _ _ _ Hd). simpl.
  by rewrite Hapi.
Qed.

(** ** What the provisioning path keeps *)

(** X9.  A definition that is already a [ProjectRequest] comes out of
    [create_project_request] exactly as it went in, however the call ends:
    no object of the caller is changed. *)
Theorem project_request_definition_is_unchanged self definition w d o w' :
  heap w !! definition = Some d →
  d !! "kind" = Some (VStr "ProjectRequest") →
  create_project_request self definition w = (o, w') →
  heap w' = heap w.
Proof.
  intros Hd Hk Hrun.
  rewrite (create_project_request_heap _ _ _ _ _ _ Hd Hrun).
  unfold switched. rewrite (insert_id d) by done. by apply insert_id.
Qed.

(** X10.  However [create_project_request] ends, the calls it has made
    are none, or the search for the [ProjectRequest] resource, or that
    search followed by one create on the resource found, carrying the
    definition with its kind overwritten; the create is never made in check
    mode. *)
Theorem request_calls self definition w d o w' :
  heap w !! definition = Some d →
  create_project_request self definition w = (o, w') →
  calls w' = calls w ∨
  ∃ api,
    d !! "apiVersion" = Some api ∧
    (calls w' = calls w ++ [EvFindResource "ProjectRequest" api true] ∨
     ∃ pr,
       check_mode self = false ∧
       calls w' = calls w ++ [EvFindResource "ProjectRequest" api true;
                              EvCreate pr (switched d)]).
Proof.
  intros Hd. rewrite (create_project_request_cases _ _ _ _ Hd). simpl.
  destruct (d !! "apiVersion") as [api|]; [|intros [= <- <-]; by left].
  destruct (client_find_resource "ProjectRequest" api true (cluster w))
    as [[pr|kwargs|e] c1].
  - destruct (check_mode self).
    + intros [= <- <-]. right. exists api. split; [done |]. by left.
    + intros [= <- <-]. right. exists api. split; [done |]. right.
      exists pr. split; [done |]. simpl. by rewrite <-(assoc_L (++)).
  - intros [= <- <-]. right. exists api. split; [done |]. by left.
  - intros [= <- <-]. right. exists api. split; [done |]. by left.
Qed.

(** X11.  Whenever [create_project_request] returns a result, the result
    has exactly the keys [changed], [method] and [result], with [changed]
    true and [method] "create"; in check mode [result] is empty. *)
Theorem request_result_shape self definition w result w' :
  create_project_request self definition w = (Returned result, w') →
  dom result = {[ "changed"; "method"; "result" ]} ∧
  result !! "changed" = Some (VBool true) ∧
  result !! "method" = Some (VStr "create") ∧
  (check_mode self = true → result !! "result" = Some (VDict ∅)).
Proof.
  assert (∀ o : dict, dom (created o) = {[ "changed"; "method"; "result" ]})
    as Hdom.
  { intros o. unfold created. rewrite !dom_insert_L, dom_singleton_L.
    set_solver. }
  destruct (heap w !! definition) as [d|] eqn:Hd; last first.
  { unfold create_project_request, setitem.
    erewrite bind_raised; [done |].
    apply bind_raised. unfold deref. by rewrite Hd. }
  rewrite (create_project_request_cases _ _ _ _ Hd). simpl.
  destruct (d !! "apiVersion") as [api|]; [|done].
  destruct (client_find_resource "ProjectRequest" api true (cluster w))
    as [[pr|kwargs|e] c1]; [|done ..].
  destruct (check_mode self).
  - intros [= <- <-]. by rewrite Hdom.
  - destruct (client_create pr (switched d) c1) as [[k8s_obj|kwargs|e] c2];
      simpl; [|done | by destruct e].
    intros [= <- <-]. by rewrite Hdom.
Qed.

(** X12.  In check mode, when the lookup raises, [perform_action] sends no
    create to the cluster, however the run ends. *)
Theorem check_mode_run_creates_nothing
    self resource definition w d metadata (kind : value) e c1 o w' :
  heap w !! definition = Some d →
  d !! "metadata" = Some (VDict metadata) →
  d !! "kind" = Some kind →
  kind = VStr "Project" ∨ kind = VStr "ProjectRequest" →
  params self !! "state" = Some (VStr "present") →
  check_mode self = true →
  client_get resource (dict_get metadata "name" VNone)
    (dict_get metadata "namespace" VNone) (cluster w) = (Raised e, c1) →
  perform_action self resource definition w = (o, w') →
  existsb is_create (calls w') = existsb is_create (calls w).
Proof.
  intros Hd Hm Hk Hin Hstate Hcheck Hget.
  erewrite perform_action_probe by eauto using probes_present.
  set (w1 := after_call _ c1 w).
  assert (existsb is_create (calls w1) = existsb is_create (calls w)) as Hw1.
  { simpl. rewrite existsb_app. simpl. by rewrite !orb_false_r. }
  destruct e as [exc| | |]; simpl; try (by intros [= <- <-]).
  destruct (is_notfound_or_forbidden exc); [|by intros [= <- <-]].
  intros Hrun. rewrite <-Hw1.
  destruct (request_calls_in_check_mode self definition w1 d o w')
    as [-> | [api ->]]; try done.
  rewrite existsb_app. simpl. by rewrite !orb_false_r.
Qed.
End edge_cases.

(** * The module on the small cluster *)

Section runs.
Import Fake.

(** A project that does not exist yet is requested; the result names
    the method "create". *)
Example run_missing_project :
  run "present" false "Project" empty_cluster =
  (Returned (created active_request),
   World {[ 1%positive := project "ProjectRequest" ]}
     (Server ["testing"] true true)
     [probe "Project"; search; submit]).
Proof. vm_compute. reflexivity. Qed.

(** The same in check mode: nothing is created. *)
Example run_missing_project_check_mode :
  run "present" true "Project" empty_cluster =
  (Returned (created ∅),
   World {[ 1%positive := project "ProjectRequest" ]} empty_cluster
     [probe "Project"; search]).
Proof. vm_compute. reflexivity. Qed.

(** Counterexample to C1 as stated: the lookup fails with not-found, the
    create of the project request succeeds, and the method of the result
    is "create", not "provision". *)
Lemma provision_method_is_not_provision :
  get "Project" (VStr "testing") VNone empty_cluster
    = (Raised not_found, empty_cluster) ∧
  create "ProjectRequest" (project "ProjectRequest") empty_cluster
    = (Returned active_request, Server ["testing"] true true) ∧
  (run "present" false "Project" empty_cluster).1
    = Returned (created active_request) ∧
  created active_request !! "changed" = Some (VBool true) ∧
  created active_request !! "method" = Some (VStr "create") ∧
  created active_request !! "method" ≠ Some (VStr "provision").
Proof.
  rewrite run_missing_project.
  repeat split; try (vm_compute; reflexivity). discriminate.
Qed.

Lemma provision_reports_changed_and_create_witness :
  ∃ result w',
    run "present" false "Project" empty_cluster = (Returned result, w') ∧
    result !! "changed" = Some (VBool true) ∧
    result !! "method" = Some (VStr "create").
Proof.
  unfold run.
  eapply provision_reports_changed_and_create;
    first [reflexivity | left; reflexivity].
Defined.

(** A definition that already is a project request is requested as it
    stands, on the resource of its own kind. *)
Example run_missing_project_request :
  run "present" false "ProjectRequest" empty_cluster =
  (Returned (created active_request),
   World {[ 1%positive := project "ProjectRequest" ]}
     (Server ["testing"] true true)
     [probe "ProjectRequest"; search;
      EvCreate "ProjectRequest" (project "ProjectRequest")]).
Proof. vm_compute. reflexivity. Qed.

(** Counterexample to C2 as stated, on both counts.  In check mode the
    lookup fails with not-found, the kind is switched and the resource is
    looked up, but no create is sent to the server.  And for a definition of
    kind "ProjectRequest" the create that is sent is a direct create of the
    original kind: it goes to the resource the caller passed, with the
    caller's definition as it was. *)
Lemma no_create_in_check_mode_and_direct_create_of_request :
  (get "Project" (VStr "testing") VNone empty_cluster
     = (Raised not_found, empty_cluster) ∧
   (run "present" true "Project" empty_cluster).2
     = World {[ 1%positive := project "ProjectRequest" ]} empty_cluster
         [probe "Project"; search] ∧
   existsb is_create (calls (run "present" true "Project" empty_cluster).2)
     = false) ∧
  (get "ProjectRequest" (VStr "testing") VNone empty_cluster
     = (Raised not_found, empty_cluster) ∧
   heap (start (project "ProjectRequest") empty_cluster) !! 1%positive
     = Some (project "ProjectRequest") ∧
   project "ProjectRequest" !! "kind" = Some (VStr "ProjectRequest") ∧
   calls (run "present" false "ProjectRequest" empty_cluster).2
     = [EvGet "ProjectRequest" (VStr "testing") VNone; search;
        EvCreate "ProjectRequest" (project "ProjectRequest")]).
Proof.
  rewrite run_missing_project_check_mode, run_missing_project_request.
  repeat split; vm_compute; reflexivity.
Qed.

Lemma unreadable_project_is_requested_witness :
  run "present" false "Project" unreadable_cluster =
    create_project_request (self_ "present" false) 1%positive
      (World {[ 1%positive := project "Project" ]} unreadable_cluster
         [probe "Project"]) ∧
  ∃ o w' new,
    run "present" false "Project" unreadable_cluster = (o, w') ∧
    heap w' = {[ 1%positive := project "ProjectRequest" ]} ∧
    calls w' = new ∧
    new = [probe "Project"; search; submit] ∧
    o = Returned (created active_request) ∧
    (∀ r b,
       EvCreate r b ∈ new →
       r = "ProjectRequest" ∧
       b !! "kind" = Some (VStr "ProjectRequest") ∧
       (∀ k, k ≠ "kind" → b !! k = project "Project" !! k) ∧
       (VStr "Project" = VStr "Project" →
        b !! "kind" ≠ project "Project" !! "kind") ∧
       (VStr "Project" = VStr "ProjectRequest" → b = project "Project")).
Proof.
  unfold run.
  exact (unreadable_project_is_requested
           (base := base (self_ "present" false))
           (self_ "present" false) "Project" 1%positive
           (start (project "Project") unreadable_cluster)
           (project "Project") {[ "name" := VStr "testing" ]} (VStr "Project")
           eq_refl eq_refl eq_refl
           (VStr "project.openshift.io/v1")
           (ApiExc ForbiddenError "projects is forbidden" 403 "Forbidden")
           unreadable_cluster "ProjectRequest" unreadable_cluster
           eq_refl (or_introl eq_refl) eq_refl eq_refl (or_intror eq_refl)
           eq_refl).
Defined.

Lemma other_api_error_on_probe_is_fatal_witness :
  ∃ kwargs w',
    run "present" false "Project" broken_cluster = (Failed kwargs, w') ∧
    kwargs !! "msg" =
      Some (VStr "Failed to retrieve requested object: internal error") ∧
    kwargs !! "error" = Some (VInt 500) ∧
    kwargs !! "status" = Some (VInt 500) ∧
    kwargs !! "reason" = Some (VStr "Internal Server Error") ∧
    heap w' = {[ 1%positive := project "Project" ]} ∧
    calls w' = [probe "Project"] ∧
    existsb is_create (calls w') = false.
Proof.
  unfold run.
  apply (other_api_error_on_probe_is_fatal
           (base := base (self_ "present" false))
           (self_ "present" false) "Project" 1%positive
           (start (project "Project") broken_cluster)
           (project "Project") {[ "name" := VStr "testing" ]} (VStr "Project")
           eq_refl eq_refl eq_refl
           (ApiExc DynamicApiError "internal error" 500 "Internal Server Error")
           broken_cluster);
    first [reflexivity | left; reflexivity | discriminate].
Defined.

Lemma absent_never_provisions_witness :
  run "absent" false "Project" empty_cluster =
  @super_perform_action client (base (self_ "absent" false))
    (self_ "absent" false) "Project" 1%positive
    (start (project "Project") empty_cluster).
Proof. unfold run. eapply absent_never_provisions; reflexivity. Defined.

(** Counterexample to C5 as stated: the caller's definition says
    "Project" before the run and "ProjectRequest" after it. *)
Lemma definition_kind_is_overwritten :
  heap (start (project "Project") empty_cluster) !! 1%positive
    = Some (project "Project") ∧
  heap (run "present" false "Project" empty_cluster).2 !! 1%positive
    = Some (project "ProjectRequest") ∧
  project "Project" !! "kind" = Some (VStr "Project") ∧
  project "ProjectRequest" !! "kind" = Some (VStr "ProjectRequest") ∧
  heap (run "present" false "Project" empty_cluster).2 !! 1%positive
    ≠ heap (start (project "Project") empty_cluster) !! 1%positive.
Proof.
  rewrite run_missing_project.
  repeat split; try (vm_compute; reflexivity).
  vm_compute. discriminate.
Qed.

Lemma definition_changes_only_in_kind_witness :
  heap (run "present" false "Project" empty_cluster).2
  = <[1%positive := <["kind" := VStr "ProjectRequest"]> (project "Project")]>
      (heap (start (project "Project") empty_cluster)).
Proof.
  unfold run.
  destruct (proj1 (definition_changes_only_in_kind
                     (base := base (self_ "present" false))
                     (self_ "present" false) "Project" 1%positive
                     (start (project "Project") empty_cluster))
              (project "Project") empty_cluster) as [_ Hheap].
  { exists {[ "name" := VStr "testing" ]}, (VStr "Project"),
      (ApiExc NotFoundError "project not found" 404 "Not Found").
    repeat split;
      first [reflexivity | left; reflexivity | vm_compute; discriminate]. }
  exact (proj1 (Hheap _ _ (surjective_pairing _))).
Defined.

Lemma existing_project_is_left_to_base_witness :
  run "present" false "Project" cluster_with_project =
  @super_perform_action client (base (self_ "present" false))
    (self_ "present" false) "Project" 1%positive
    (World {[ 1%positive := project "Project" ]} cluster_with_project
       [probe "Project"]).
Proof.
  unfold run.
  eapply (existing_project_is_left_to_base
            (base := base (self_ "present" false))
            (self_ "present" false) "Project" 1%positive
            (start (project "Project") cluster_with_project)
            (project "Project") {[ "name" := VStr "testing" ]} (VStr "Project")
            eq_refl eq_refl eq_refl);
    first [reflexivity | left; reflexivity].
Defined.

Lemma provisioning_kinds_are_fixed_witness :
  run "present" false "ConfigMap" empty_cluster =
  @super_perform_action client (base (self_ "present" false))
    (self_ "present" false) "ConfigMap" 1%positive
    (start (project "ConfigMap") empty_cluster).
Proof.
  unfold run.
  eapply (proj1 (provisioning_kinds_are_fixed
                   (base := base (self_ "present" false))
                   (self_ "present" false) "ConfigMap" 1%positive
                   (start (project "ConfigMap") empty_cluster)
                   (project "ConfigMap") {[ "name" := VStr "testing" ]}
                   (VStr "ConfigMap") eq_refl eq_refl eq_refl));
    discriminate.
Defined.

Lemma provisioning_does_not_wait_witness :
  params (self_ "present" false) !! "wait" = Some (VBool true) ∧
  ∃ result w',
    run "present" false "Project" unreadable_cluster = (Returned result, w') ∧
    result !! "duration" = None ∧
    cluster w' = Server ["testing"] false true ∧
    calls w' = [probe "Project"; search; submit] ∧
    existsb is_wait (calls w') = false.
Proof.
  split; [reflexivity |]. unfold run.
  apply (provisioning_does_not_wait
           (base := base (self_ "present" false))
           (self_ "present" false) "Project" 1%positive
           (start (project "Project") unreadable_cluster)
           (project "Project") {[ "name" := VStr "testing" ]} (VStr "Project")
           eq_refl eq_refl eq_refl
           (VStr "project.openshift.io/v1")
           (ApiExc ForbiddenError "projects is forbidden" 403 "Forbidden")
           unreadable_cluster "ProjectRequest" unreadable_cluster
           active_request (Server ["testing"] false true));
    first [reflexivity | left; reflexivity | right; reflexivity].
Defined.

Lemma missing_collection_raises_before_reporting_witness :
  init (base := base (self_ "present" false))
    (Globals false "Traceback (most recent call last)" "No module named")
    (start (project "Project") empty_cluster)
  = (Raised (AttributeError "cleanup_files"),
     start (project "Project") empty_cluster) ∧
  main (base := base (self_ "present" false))
    (Globals false "Traceback (most recent call last)" "No module named")
    (start (project "Project") empty_cluster)
  = (Raised (AttributeError "cleanup_files"),
     start (project "Project") empty_cluster) ∧
  (∀ kwargs w',
     init (base := base (self_ "present" false))
       (Globals false "Traceback (most recent call last)" "No module named")
       (start (project "Project") empty_cluster)
     ≠ (Failed kwargs, w')) ∧
  (∀ kwargs w',
     main (base := base (self_ "present" false))
       (Globals false "Traceback (most recent call last)" "No module named")
       (start (project "Project") empty_cluster)
     ≠ (Failed kwargs, w')).
Proof. apply missing_collection_raises_before_reporting. reflexivity. Defined.

Lemma check_mode_creates_nothing_witness :
  (∃ result w',
     request true empty_cluster = (Returned result, w') ∧
     result !! "changed" = Some (VBool true) ∧
     result !! "result" = Some (VDict ∅) ∧
     cluster w' = empty_cluster ∧
     calls w' = [search] ∧
     existsb is_create (calls w') = false) ∧
  (∃ result w',
     request false empty_cluster = (Returned result, w') ∧
     result !! "changed" = Some (VBool true) ∧
     result !! "result" = Some (VDict active_request) ∧
     calls w' = [search; submit]).
Proof.
  unfold request. split.
  - eapply (proj1 (check_mode_creates_nothing
                     (self_ "present" true) 1%positive
                     (start (project "Project") empty_cluster)
                     (project "Project") (VStr "project.openshift.io/v1")
                     "ProjectRequest" empty_cluster
                     eq_refl eq_refl eq_refl)).
    reflexivity.
  - eapply (proj2 (check_mode_creates_nothing
                     (self_ "present" false) 1%positive
                     (start (project "Project") empty_cluster)
                     (project "Project") (VStr "project.openshift.io/v1")
                     "ProjectRequest" empty_cluster
                     eq_refl eq_refl eq_refl));
      reflexivity.
Defined.
End runs.

(** * The module on the scripted cluster *)

Section scripted_runs.
Import Scripted.

Lemma missing_metadata_raises_witness :
  run false no_metadata all_fine
  = (Raised (KeyError "metadata"), start no_metadata all_fine).
Proof.
  unfold run.
  apply (missing_metadata_raises _ _ _ _ no_metadata); reflexivity.
Defined.

Lemma metadata_without_get_raises_witness :
  run false null_metadata all_fine
  = (Raised (AttributeError "get"), start null_metadata all_fine).
Proof.
  unfold run.
  apply (metadata_without_get_raises _ _ _ _ null_metadata VNone);
    [reflexivity | reflexivity | discriminate].
Defined.

Lemma missing_kind_raises_witness :
  perform_action (base := base (self_ false))
    (Self {[ "state" := VStr "absent" ]} false) "Project" 1%positive
    (start no_kind all_fine)
  = (Raised (KeyError "kind"), start no_kind all_fine).
Proof.
  apply (missing_kind_raises _ _ _ _ no_kind ∅); reflexivity.
Defined.

Lemma create_api_error_is_fatal_witness :
  ∃ kwargs w',
    request false (project "Project") create_denied = (Failed kwargs, w') ∧
    kwargs !! "msg" = Some (VStr "Failed to create object: forbidden") ∧
    kwargs !! "error" = Some (VInt 403) ∧
    kwargs !! "status" = Some (VInt 403) ∧
    kwargs !! "reason" = Some (VStr "Forbidden") ∧
    heap w' = {[ 1%positive := project "ProjectRequest" ]} ∧
    cluster w' = create_denied ∧
    calls w' = [search; submit].
Proof.
  unfold request.
  apply (create_api_error_is_fatal
           (self_ false) 1%positive (start (project "Project") create_denied)
           (project "Project") (VStr "project.openshift.io/v1")
           "ProjectRequest" create_denied
           (ApiExc ForbiddenError "forbidden" 403 "Forbidden") create_denied);
    reflexivity.
Defined.

Lemma create_exception_propagates_witness :
  request false (project "Project") create_broken
  = (Raised (OtherException "connection refused"),
     World {[ 1%positive := project "ProjectRequest" ]} create_broken
       [search; submit]).
Proof.
  unfold request.
  apply (create_exception_propagates
           (self_ false) 1%positive (start (project "Project") create_broken)
           (project "Project") (VStr "project.openshift.io/v1")
           "ProjectRequest" create_broken
           (OtherException "connection refused") create_broken);
    first [reflexivity | discriminate].
Defined.

Lemma get_exception_propagates_witness :
  run false (project "Project") get_broken
  = (Raised (OtherException "connection refused"),
     World {[ 1%positive := project "Project" ]} get_broken
       [EvGet "Project" (VStr "testing") VNone]).
Proof.
  unfold run.
  exact (get_exception_propagates
           (base := base (self_ false))
           (self_ false) "Project" 1%positive
           (start (project "Project") get_broken)
           (project "Project") {[ "name" := VStr "testing" ]} (VStr "Project")
           (OtherException "connection refused") get_broken
           eq_refl eq_refl eq_refl (or_introl eq_refl) eq_refl eq_refl
           (λ exc, ltac:(discriminate))).
Defined.

Lemma unresolved_request_kind_is_fatal_witness :
  request false (project "Project") no_request_kind
  = (Failed {[ "msg" := VStr "Failed to find exact match for ProjectRequest" ]},
     World {[ 1%positive := project "ProjectRequest" ]} no_request_kind
       [search]).
Proof.
  unfold request.
  apply (unresolved_request_kind_is_fatal
           (self_ false) 1%positive (start (project "Project") no_request_kind)
           (project "Project") (VStr "project.openshift.io/v1"));
    reflexivity.
Defined.

Lemma missing_api_version_raises_witness :
  request false no_api_version all_fine
  = (Raised (KeyError "apiVersion"),
     World {[ 1%positive := <["kind" := VStr "ProjectRequest"]> no_api_version ]}
       all_fine []).
Proof.
  unfold request.
  apply (missing_api_version_raises (self_ false) 1%positive
           (start no_api_version all_fine) no_api_version);
    reflexivity.
Defined.

Lemma project_request_definition_is_unchanged_witness :
  heap (request false (project "ProjectRequest") all_fine).2
  = heap (start (project "ProjectRequest") all_fine).
Proof.
  apply (project_request_definition_is_unchanged
           (self_ false) 1%positive (start (project "ProjectRequest") all_fine)
           (project "ProjectRequest")
           (request false (project "ProjectRequest") all_fine).1);
    [reflexivity | reflexivity | apply surjective_pairing].
Defined.

Lemma request_calls_witness :
  calls (request true (project "Project") all_fine).2 = [] ∨
  ∃ api,
    project "Project" !! "apiVersion" = Some api ∧
    (calls (request true (project "Project") all_fine).2
     = [EvFindResource "ProjectRequest" api true] ∨
     ∃ pr,
       check_mode (self_ true) = false ∧
       calls (request true (project "Project") all_fine).2
       = [EvFindResource "ProjectRequest" api true;
          EvCreate pr (switched (project "Project"))]).
Proof.
  apply (request_calls
           (self_ true) 1%positive (start (project "Project") all_fine)
           (project "Project")
           (request true (project "Project") all_fine).1);
    [reflexivity | apply surjective_pairing].
Defined.

Lemma request_result_shape_witness :
  dom (created ∅) = {[ "changed"; "method"; "result" ]} ∧
  created ∅ !! "changed" = Some (VBool true) ∧
  created ∅ !! "method" = Some (VStr "create") ∧
  (check_mode (self_ true) = true → created ∅ !! "result" = Some (VDict ∅)).
Proof.
  apply (request_result_shape (client := client)
           (self_ true) 1%positive (start (project "Project") all_fine)
           (created ∅)
           (@World client {[ 1%positive := project "ProjectRequest" ]}
              all_fine [search])).
  vm_compute. reflexivity.
Defined.

Lemma check_mode_run_creates_nothing_witness :
  existsb is_create (calls (run true (project "Project") get_denied).2)
  = existsb is_create (calls (start (project "Project") get_denied)).
Proof.
  apply (check_mode_run_creates_nothing
           (base := base (self_ true))
           (self_ true) "Project" 1%positive
           (start (project "Project") get_denied)
           (project "Project") {[ "name" := VStr "testing" ]} (VStr "Project")
           (ApiError (ApiExc ForbiddenError "forbidden" 403 "Forbidden"))
           get_denied
           (run true (project "Project") get_denied).1);
    first [reflexivity | left; reflexivity | apply surjective_pairing].
Defined.
End scripted_runs.
